(** * Clarity API: the text explainer of [main.py]

    A shallow embedding of [explain_text] (the handler of POST /api/explain)
    and of the Python string operations it calls, followed by the properties
    of the handler.

    A Python [str] is a sequence of Unicode code points; it is modelled as a
    list of code points, so that the ellipsis U+2026 is one character and the
    white space of [str.strip], [str.split] and the regular expression class
    [\s] is the Unicode white space Python uses for all three. *)

From Stdlib Require Import String Ascii List NArith Bool Arith Lia.
Import ListNotations.

Set Implicit Arguments.

(** ** Python strings *)

Definition char := N.
Definition pystr := list char.

(** A string literal of the source (ASCII text). *)
Definition lit (s : string) : pystr :=
  map N_of_ascii (list_ascii_of_string s).

(** The character U+2026, written as a literal in the source. *)
Definition ellipsis : char := 8230%N.

Module Str.

Local Open Scope N_scope.

(** [str.isspace] on one character, which is also the class [\s] of [re] on
    [str] patterns: U+0009..U+000D, U+001C..U+0020, U+0085, U+00A0, U+1680,
    U+2000..U+200A, U+2028, U+2029, U+202F, U+205F, U+3000. *)
Definition isspace (c : char) : bool :=
  ((9 <=? c) && (c <=? 13)) || ((28 <=? c) && (c <=? 32))
  || (c =? 133) || (c =? 160) || (c =? 5760)
  || ((8192 <=? c) && (c <=? 8202))
  || (c =? 8232) || (c =? 8233) || (c =? 8239) || (c =? 8287) || (c =? 12288).

(** Case mappings of the ASCII letters.  The handler changes the case of its
    own table entries only, which are ASCII. *)
Definition upper (c : char) : char :=
  if (97 <=? c) && (c <=? 122) then c - 32 else c.

Definition lower (c : char) : char :=
  if (65 <=? c) && (c <=? 90) then c + 32 else c.

Local Close Scope N_scope.

(** [s == t] *)
Fixpoint eqb (s t : pystr) : bool :=
  match s, t with
  | [], [] => true
  | c :: s', d :: t' => N.eqb c d && eqb s' t'
  | _, _ => false
  end.

(** [s.capitalize()]: first character to upper case, the others to lower
    case. *)
Definition capitalize (s : pystr) : pystr :=
  match s with
  | [] => []
  | c :: r => upper c :: map lower r
  end.

(** [s.lstrip()], [s.rstrip()], [s.strip()] *)
Fixpoint lstrip (s : pystr) : pystr :=
  match s with
  | [] => []
  | c :: s' => if isspace c then lstrip s' else s
  end.

Definition rstrip (s : pystr) : pystr := rev (lstrip (rev s)).

Definition strip (s : pystr) : pystr := rstrip (lstrip s).

(** [s.startswith(p)] *)
Fixpoint startswith (p s : pystr) : bool :=
  match p, s with
  | [], _ => true
  | _ :: _, [] => false
  | a :: p', b :: s' => N.eqb a b && startswith p' s'
  end.

(** [p in s] *)
Fixpoint contains (p s : pystr) : bool :=
  startswith p s ||
  match s with
  | [] => false
  | _ :: s' => contains p s'
  end.

(** [s.replace(old, new)] for a non-empty [old]: the occurrences of [old] are
    found from the left and do not overlap.  [skip] counts the characters of
    an occurrence that are still to be passed over. *)
Fixpoint replace_from (old new : pystr) (skip : nat) (s : pystr) : pystr :=
  match s with
  | [] => []
  | c :: s' =>
      match skip with
      | S k => replace_from old new k s'
      | O =>
          if startswith old s
          then new ++ replace_from old new (length old - 1) s'
          else c :: replace_from old new 0 s'
      end
  end.

(** [s.replace(old, new)]; an empty [old] matches before every character and
    at the end. *)
Definition replace (old new : pystr) (s : pystr) : pystr :=
  match old with
  | [] => new ++ flat_map (fun c => c :: new) s
  | _ :: _ => replace_from old new 0 s
  end.

(** [s.split()]: the maximal runs of characters that are not white space. *)
Definition starts_word (s : pystr) : bool :=
  match s with
  | [] => false
  | c :: _ => negb (isspace c)
  end.

Fixpoint split (s : pystr) : list pystr :=
  match s with
  | [] => []
  | c :: s' =>
      if isspace c then split s'
      else if starts_word s'
           then match split s' with
                | w :: ws => (c :: w) :: ws
                | [] => [[c]]
                end
           else [c] :: split s'
  end.

(** [sep.join(l)] *)
Fixpoint join (sep : pystr) (l : list pystr) : pystr :=
  match l with
  | [] => []
  | [x] => x
  | x :: l' => x ++ sep ++ join sep l'
  end.

End Str.

(** ** The regular expression of the handler *)

Module Re.

(** The class [[.!?]] *)
Definition is_terminator (c : char) : bool :=
  N.eqb c 46 || N.eqb c 33 || N.eqb c 63.

(** The look-behind [(?<=[.!?])] at a position whose preceding text, read
    backwards, is [before]. *)
Definition lookbehind (before : pystr) : bool :=
  match before with
  | [] => false
  | c :: _ => is_terminator c
  end.

(** [re.split(r"(?<=[.!?])\s+", s)].  A match is a maximal run of white space
    whose preceding character is a terminator; the pieces between the matches
    are returned, the last one also when it is empty.  [cur] is the piece
    being read, backwards; [in_match] says that the preceding character
    belongs to a match, which the greedy [\s+] extends. *)
Fixpoint split_from (in_match : bool) (cur : pystr) (s : pystr) : list pystr :=
  match s with
  | [] => [rev cur]
  | c :: s' =>
      if Str.isspace c then
        if in_match then split_from true cur s'
        else if lookbehind cur then rev cur :: split_from true [] s'
        else split_from false (c :: cur) s'
      else split_from false (c :: cur) s'
  end.

Definition split_sentences (s : pystr) : list pystr := split_from false [] s.

End Re.

(** ** Python objects, dictionaries and exceptions *)

(** A [dict] with string keys and values.  Python keeps the keys in the order
    of their first insertion; assigning to a key that is present changes its
    value and leaves its place. *)
Module Dict.

Definition t := list (pystr * pystr).

Fixpoint setitem (d : t) (k v : pystr) : t :=
  match d with
  | [] => [(k, v)]
  | (k', v') :: d' =>
      if Str.eqb k' k then (k', v) :: d' else (k', v') :: setitem d' k v
  end.

(** A dictionary display [{k1: v1, k2: v2, ...}]: the entries are inserted
    from left to right. *)
Definition display (entries : list (pystr * pystr)) : t :=
  fold_left (fun d kv => setitem d (fst kv) (snd kv)) entries [].

(** [d.items()] *)
Definition items (d : t) : list (pystr * pystr) := d.

End Dict.

(** The values that reach the constructor of a response model. *)
#[warnings="-register-all"] Inductive pyobj : Type :=
  | PyNone
  | PyStr (s : pystr)
  | PyList (l : list pyobj).

(** Truth value of an object: [None], the empty string and the empty list are
    false. *)
Definition truthy (o : pyobj) : bool :=
  match o with
  | PyNone => false
  | PyStr [] => false
  | PyStr (_ :: _) => true
  | PyList [] => false
  | PyList (_ :: _) => true
  end.

(** [a or b] *)
Definition py_or (a b : pyobj) : pyobj := if truthy a then a else b.

Inductive exn : Type :=
  | ValidationError (field : string).

(** A call returns a value or raises. *)
Inductive outcome (A : Type) : Type :=
  | Returns (a : A)
  | Raises (e : exn).

Arguments Raises {A} e.

Definition bind {A B : Type} (m : outcome A) (k : A -> outcome B) : outcome B :=
  match m with
  | Returns a => k a
  | Raises e => Raises e
  end.

Notation "x <- m ;; k" := (bind m (fun x => k))
  (at level 61, m at next level, right associativity).

(** ** The request and response models *)

(** [class ExplainRequest(BaseModel)] *)
Record ExplainRequest : Type := { text : pystr }.

(** [class ExplainResponse(BaseModel)] *)
Record ExplainResponse : Type := {
  original : pystr;
  explanation : pystr;
  tips : option (list pystr)
}.

Module Validate.

(** A field declared [str] *)
Definition str (field : string) (o : pyobj) : outcome pystr :=
  match o with
  | PyStr s => Returns s
  | _ => Raises (ValidationError field)
  end.

Fixpoint str_items (l : list pyobj) : option (list pystr) :=
  match l with
  | [] => Some []
  | PyStr s :: l' => option_map (cons s) (str_items l')
  | _ :: _ => None
  end.

(** A field declared [Optional[List[str]]] *)
Definition optional_list_str (field : string) (o : pyobj)
  : outcome (option (list pystr)) :=
  match o with
  | PyNone => Returns None
  | PyList l =>
      match str_items l with
      | Some ss => Returns (Some ss)
      | None => Raises (ValidationError field)
      end
  | PyStr _ => Raises (ValidationError field)
  end.

(** [ExplainResponse(original=..., explanation=..., tips=...)]: the fields are
    validated against their declared types, and the constructor raises when
    one of them does not fit. *)
Definition response (original explanation tips : pyobj)
  : outcome ExplainResponse :=
  o <- str "original" original ;;
  e <- str "explanation" explanation ;;
  t <- optional_list_str "tips" tips ;;
  Returns {| original := o; explanation := e; tips := t |}.

End Validate.

(** ** The handler *)

Section Handler.

(** The dictionary display of the handler, as written: 25 entries, the key
    [endeavour] twice. *)
Definition replacements_display : list (pystr * pystr) :=
  [ (lit "utilize", lit "use");
    (lit "leverage", lit "use");
    (lit "in the event that", lit "if");
    (lit "notwithstanding", lit "despite");
    (lit "commence", lit "start");
    (lit "terminate", lit "end");
    (lit "endeavor", lit "try");
    (lit "subsequent", lit "next");
    (lit "prior to", lit "before");
    (lit "pursuant to", lit "under");
    (lit "facilitate", lit "help");
    (lit "endeavour", lit "try");
    (lit "approximately", lit "about");
    (lit "modality", lit "way");
    (lit "methodology", lit "method");
    (lit "mitigate", lit "reduce");
    (lit "ameliorate", lit "improve");
    (lit "expedite", lit "speed up");
    (lit "commensurate", lit "matching");
    (lit "endeavour", lit "try");
    (lit "aforementioned", lit "mentioned above");
    (lit "henceforth", lit "from now on");
    (lit "therein", lit "in it");
    (lit "thereof", lit "of it");
    (lit "heretofore", lit "until now") ].

Definition replacements : Dict.t := Dict.display replacements_display.

Definition fillers : list pystr :=
  [ lit "it should be noted that";
    lit "for the avoidance of doubt";
    lit "in order to";
    lit "as per";
    lit "with respect to" ].

Definition guidance : pystr := lit "Please provide some text to explain.".
Definition long_sentence_tip : pystr := lit "Long sentence shortened for clarity".
Definition in_simple_terms : pystr := lit "In simple terms: ".
Definition heres_the_gist : pystr := lit "Here's the gist: ".

(** One turn of [for k, v in replacements.items()] *)
Definition substitute (simplified : pystr) (kv : pystr * pystr) : pystr :=
  let (k, v) := kv in
  Str.replace (Str.capitalize k) (Str.capitalize v) (Str.replace k v simplified).

(** [simplified] after the loop over the jargon table *)
Definition simplify (original : pystr) : pystr :=
  fold_left substitute (Dict.items replacements) original.

(** One turn of [for f in fillers] *)
Definition remove_filler (s2 f : pystr) : pystr :=
  Str.replace (Str.capitalize f) [] (Str.replace f [] s2).

Definition remove_fillers (s2 : pystr) : pystr :=
  fold_left remove_filler fillers s2.

(** One turn of [for s in sentences], on the two lists the loop appends to. *)
Definition sentence_step (acc : list pystr * list pystr) (s : pystr)
  : list pystr * list pystr :=
  let (clean_sentences, tips) := acc in
  let s2 := Str.strip s in
  if negb (truthy (PyStr s2)) then acc
  else
    let s2 := remove_fillers s2 in
    let words := Str.split s2 in
    if 24 <? length words
    then (clean_sentences ++ [Str.join (lit " ") (firstn 24 words) ++ [ellipsis]],
          tips ++ [long_sentence_tip])
    else (clean_sentences ++ [s2], tips).

(** The two lists after the loop over the sentences of [simplified] *)
Definition shorten (simplified : pystr) : list pystr * list pystr :=
  fold_left sentence_step (Re.split_sentences simplified) ([], []).

(** [explanation] after the join, before the fallback framing *)
Definition joined (original : pystr) : pystr :=
  Str.join (lit " ") (fst (shorten (simplify original))).

(** The fallback framing of an explanation that equals the original *)
Definition frame (original explanation : pystr) : pystr :=
  if Str.eqb explanation original
  then if length (Str.split explanation) <? 30
       then in_simple_terms ++ explanation
       else heres_the_gist ++ explanation
  else explanation.

(** [explain_text(payload)] *)
Definition explain_text (payload : ExplainRequest) : outcome ExplainResponse :=
  let original := Str.strip (text payload) in
  if negb (truthy (PyStr original))
  then Validate.response (PyStr (text payload)) (PyStr guidance) PyNone
  else
    let simplified := simplify original in
    let (clean_sentences, tips) := shorten simplified in
    let explanation := Str.join (lit " ") clean_sentences in
    let explanation := frame original explanation in
    Validate.response (PyStr original) (PyStr explanation)
                      (py_or (PyList (map PyStr tips)) PyNone).

End Handler.

(** A request whose text is an ASCII literal, for the examples. *)
Definition req (s : string) : ExplainRequest := {| text := lit s |}.

(** ** The diagnostic endpoint *)

(** A [dict] with string keys and arbitrary values, in insertion order. *)
Module ObjDict.

Definition t := list (pystr * pyobj).

(** [d[k] = v] *)
Fixpoint setitem (d : t) (k : pystr) (v : pyobj) : t :=
  match d with
  | [] => [(k, v)]
  | (k', v') :: d' =>
      if Str.eqb k' k then (k', v) :: d' else (k', v') :: setitem d' k v
  end.

(** [d.get(k)] *)
Fixpoint get (d : t) (k : pystr) : option pyobj :=
  match d with
  | [] => None
  | (k', v') :: d' => if Str.eqb k' k then Some v' else get d' k
  end.

(** [list(d.keys())] *)
Definition keys (d : t) : list pystr := map fst d.

End ObjDict.

(** What [test_database] meets outside [main.py]: the optional module
    [database] and the environment of the process. *)
Module Db.

(** An exception that derives from [Exception], with its [str]: only
    [ImportError] is told apart by the handlers. *)
Inductive raised : Type :=
  | ImportError (msg : pystr)
  | OtherException (msg : pystr).

(** [str(e)] *)
Definition message (e : raised) : pystr :=
  match e with
  | ImportError msg => msg
  | OtherException msg => msg
  end.

(** Reading [db.name]: the attribute is missing ([AttributeError], which
    [hasattr] turns into [False]), has a value, or its getter raises. *)
Inductive attribute : Type :=
  | Missing
  | Value (v : pyobj)
  | GetterRaises (e : raised).

(** Calling [db.list_collection_names()]: the call raises, or returns
    [None], a string or a list.  A result of another type is not covered. *)
Inductive call : Type :=
  | Result (v : pyobj)
  | CallRaises (e : raised).

(** The object bound to [db] when it is not [None] *)
Record database : Type := {
  name : attribute;
  list_collection_names : call
}.

(** [from database import db] *)
Inductive import : Type :=
  | ImportRaises (e : raised)
  | Imported (db : option database).

Record world : Type := {
  import_db : import;
  getenv : pystr -> option pystr
}.

End Db.

(** The statements of [test_database] change the dictionary [response] and
    may raise; a raise leaves the changes made so far. *)
Module Stmt.

Inductive result (A : Type) : Type :=
  | Done (a : A)
  | Raised (e : Db.raised).

Arguments Raised {A} e.

Definition t (A : Type) : Type := ObjDict.t -> result A * ObjDict.t.

Definition ret {A : Type} (a : A) : t A := fun d => (Done a, d).

Definition raise {A : Type} (e : Db.raised) : t A := fun d => (Raised e, d).

Definition bind {A B : Type} (m : t A) (k : A -> t B) : t B :=
  fun d =>
    match m d with
    | (Done a, d') => k a d'
    | (Raised e, d') => (Raised e, d')
    end.

(** [try: body  except ...: handler] *)
Definition try_except {A : Type} (body : t A) (handler : Db.raised -> t A) : t A :=
  fun d =>
    match body d with
    | (Done a, d') => (Done a, d')
    | (Raised e, d') => handler e d'
    end.

(** [response[k] = v] *)
Definition assign (k : pystr) (v : pyobj) : t unit :=
  fun d => (Done tt, ObjDict.setitem d k v).

End Stmt.

Notation "x <-- m ;;; k" := (Stmt.bind m (fun x => k))
  (at level 61, m at next level, right associativity).
Notation "m ;;; k" := (Stmt.bind m (fun _ => k))
  (at level 61, right associativity).

Section Diagnostics.

Definition check_mark : pystr := [9989%N].
Definition cross_mark : pystr := [10060%N].
Definition warning_sign : pystr := [9888%N; 65039%N].

(** The dictionary display that [response] starts from *)
Definition initial_response : ObjDict.t :=
  [ (lit "backend", PyStr (check_mark ++ lit " Running"));
    (lit "database", PyStr (cross_mark ++ lit " Not Available"));
    (lit "database_url", PyNone);
    (lit "database_name", PyNone);
    (lit "connection_status", PyStr (lit "Not Connected"));
    (lit "collections", PyList []) ].

(** [from database import db] *)
Definition import_statement (w : Db.world) : Stmt.t (option Db.database) :=
  match Db.import_db w with
  | Db.ImportRaises e => Stmt.raise e
  | Db.Imported db => Stmt.ret db
  end.

(** [db.name if hasattr(db, 'name') else "... Connected"] *)
Definition name_or_connected (db : Db.database) : Stmt.t pyobj :=
  match Db.name db with
  | Db.Missing => Stmt.ret (PyStr (check_mark ++ lit " Connected"))
  | Db.Value v => Stmt.ret v
  | Db.GetterRaises e => Stmt.raise e
  end.

(** [db.list_collection_names()] *)
Definition call_list_collection_names (db : Db.database) : Stmt.t pyobj :=
  match Db.list_collection_names db with
  | Db.Result v => Stmt.ret v
  | Db.CallRaises e => Stmt.raise e
  end.

(** [collections[:10]]: a list and a string can be sliced, [None] cannot. *)
Definition first_ten (collections : pyobj) : Stmt.t pyobj :=
  match collections with
  | PyList l => Stmt.ret (PyList (firstn 10 l))
  | PyStr s => Stmt.ret (PyStr (firstn 10 s))
  | PyNone =>
      Stmt.raise (Db.OtherException (lit "'NoneType' object is not subscriptable"))
  end.

(** The inner [try] and its [except Exception as e] *)
Definition verify_connectivity (db : Db.database) : Stmt.t unit :=
  Stmt.try_except
    (collections <-- call_list_collection_names db ;;;
     shown <-- first_ten collections ;;;
     Stmt.assign (lit "collections") shown ;;;
     Stmt.assign (lit "database")
                 (PyStr (check_mark ++ lit " Connected & Working")))
    (fun e =>
       Stmt.assign (lit "database")
                   (PyStr (warning_sign ++ lit "  Connected but Error: "
                           ++ firstn 50 (Db.message e)))).

(** The outer [try] and its two handlers *)
Definition inspect_database (w : Db.world) : Stmt.t unit :=
  Stmt.try_except
    (db <-- import_statement w ;;;
     match db with
     | Some db =>
         Stmt.assign (lit "database") (PyStr (check_mark ++ lit " Available")) ;;;
         Stmt.assign (lit "database_url") (PyStr (check_mark ++ lit " Configured")) ;;;
         shown_name <-- name_or_connected db ;;;
         Stmt.assign (lit "database_name") shown_name ;;;
         Stmt.assign (lit "connection_status") (PyStr (lit "Connected")) ;;;
         verify_connectivity db
     | None =>
         Stmt.assign (lit "database")
                     (PyStr (warning_sign ++ lit "  Available but not initialized"))
     end)
    (fun e =>
       match e with
       | Db.ImportError _ =>
           Stmt.assign (lit "database")
             (PyStr (cross_mark
                     ++ lit " Database module not found (run enable-database first)"))
       | Db.OtherException msg =>
           Stmt.assign (lit "database")
             (PyStr (cross_mark ++ lit " Error: " ++ firstn 50 msg))
       end).

(** ["... Set" if os.getenv(name) else "... Not Set"] *)
Definition set_or_not (w : Db.world) (name : pystr) : pyobj :=
  if match Db.getenv w name with
     | Some value => truthy (PyStr value)
     | None => truthy PyNone
     end
  then PyStr (check_mark ++ lit " Set")
  else PyStr (cross_mark ++ lit " Not Set").

(** The body of [test_database], as a statement on [response] *)
Definition test_database_body (w : Db.world) : Stmt.t unit :=
  inspect_database w ;;;
  Stmt.assign (lit "database_url") (set_or_not w (lit "DATABASE_URL")) ;;;
  Stmt.assign (lit "database_name") (set_or_not w (lit "DATABASE_NAME")).

(** [test_database()]: the dictionary it returns, or the exception that
    leaves it. *)
Definition test_database (w : Db.world) : Stmt.result ObjDict.t :=
  match test_database_body w initial_response with
  | (Stmt.Done _, response) => Stmt.Done response
  | (Stmt.Raised e, _) => Stmt.Raised e
  end.

End Diagnostics.

(** * The vocabulary of the properties *)

(** A word: not empty, no white space. *)
Definition is_word (w : pystr) : bool :=
  match w with
  | [] => false
  | _ :: _ => forallb (fun c => negb (Str.isspace c)) w
  end.

(** Every white-space character of the string is one U+0020 that stands
    between two characters that are not white space. *)
Fixpoint single_spaced_from (after_space : bool) (s : pystr) : bool :=
  match s with
  | [] => negb after_space
  | c :: s' =>
      if Str.isspace c
      then negb after_space && N.eqb c 32 && single_spaced_from true s'
      else single_spaced_from false s'
  end.

Definition single_spaced (s : pystr) : bool := single_spaced_from true s.

(** ** What one sentence contributes *)

(** The sentence is not empty after [strip], so the loop does not skip it. *)
Definition is_kept (s : pystr) : bool := truthy (PyStr (Str.strip s)).

(** The sentence is kept and has more than 24 words once the fillers are
    removed. *)
Definition is_long (s : pystr) : bool :=
  is_kept s && (24 <? length (Str.split (remove_fillers (Str.strip s)))).

(** The text that a kept sentence appends to [clean_sentences]. *)
Definition rendered (s : pystr) : pystr :=
  let s2 := remove_fillers (Str.strip s) in
  let words := Str.split s2 in
  if 24 <? length words
  then Str.join (lit " ") (firstn 24 words) ++ [ellipsis]
  else s2.

(** One of the jargon phrases, or its capitalized form, occurs in the text. *)
Definition has_jargon (s : pystr) : bool :=
  existsb (fun kv => Str.contains (fst kv) s
                     || Str.contains (Str.capitalize (fst kv)) s)
          (Dict.items replacements).

(** One of the filler phrases, or its capitalized form, occurs in the text. *)
Definition has_filler (s : pystr) : bool :=
  existsb (fun f => Str.contains f s || Str.contains (Str.capitalize f) s)
          fillers.


(** The string is not empty and neither starts nor ends with white space. *)
Definition clean_ends (s : pystr) : bool :=
  Str.starts_word s && Str.starts_word (rev s).

(** The last character of the string is one of [.!?]. *)
Definition ends_in_terminator (s : pystr) : bool := Re.lookbehind (rev s).

(** The characters of the string that are not white space, in order. *)
Definition nonspace (s : pystr) : pystr :=
  filter (fun c => negb (Str.isspace c)) s.

(** [test_database] gets as far as writing "Connected": the import gives a
    [db] that is not [None] and reading its name does not raise. *)
Definition reaches_connected (w : Db.world) : bool :=
  match Db.import_db w with
  | Db.Imported (Some db) =>
      match Db.name db with
      | Db.GetterRaises _ => false
      | _ => true
      end
  | _ => false
  end.

(** The number of items of a list, of characters of a string. *)
Definition size (o : pyobj) : nat :=
  match o with
  | PyNone => 0
  | PyStr s => length s
  | PyList l => length l
  end.

(** ** The jargon substitution as the specification words it *)

Module Spec.

(** The fixed table, in the order of its definition. *)
Definition jargon_table : list (pystr * pystr) :=
  [ (lit "utilize", lit "use");
    (lit "leverage", lit "use");
    (lit "in the event that", lit "if");
    (lit "notwithstanding", lit "despite");
    (lit "commence", lit "start");
    (lit "terminate", lit "end");
    (lit "endeavor", lit "try");
    (lit "subsequent", lit "next");
    (lit "prior to", lit "before");
    (lit "pursuant to", lit "under");
    (lit "facilitate", lit "help");
    (lit "endeavour", lit "try");
    (lit "approximately", lit "about");
    (lit "modality", lit "way");
    (lit "methodology", lit "method");
    (lit "mitigate", lit "reduce");
    (lit "ameliorate", lit "improve");
    (lit "expedite", lit "speed up");
    (lit "commensurate", lit "matching");
    (lit "aforementioned", lit "mentioned above");
    (lit "henceforth", lit "from now on");
    (lit "therein", lit "in it");
    (lit "thereof", lit "of it");
    (lit "heretofore", lit "until now") ].

(** First character uppercased, rest unchanged. *)
Definition Capitalize (p : pystr) : pystr :=
  match p with
  | [] => []
  | c :: r => Str.upper c :: r
  end.

(** One step: every occurrence of the phrase, then every occurrence of the
    capitalized phrase, on the current string. *)
Definition jargon_step (current : pystr) (pair : pystr * pystr) : pystr :=
  Str.replace (Capitalize (fst pair)) (Capitalize (snd pair))
              (Str.replace (fst pair) (snd pair) current).

Definition jargon_fold (original : pystr) : pystr :=
  fold_left jargon_step jargon_table original.

End Spec.

(** ** Texts of the examples *)

(** Thirty words in two short sentences, for the second prefix. *)
Definition thirty_plain_words : string :=
  "a b c d e f g h i j k l m n o. a b c d e f g h i j k l m n o.".

Definition twentyfive_words : string :=
  "a b c d e f g h i j k l m n o p q r s t u v w x y".

(** One sentence of thirty words. *)
Definition thirty_word_sentence : string :=
  "a b c d e f g h i j k l m n o p q r s t u v w x y z aa bb cc dd.".

(** Twenty-five words, the first two set apart by three spaces. *)
Definition spaced_words : string :=
  "a   b c d e f g h i j k l m n o p q r s t u v w x y".


(** * Properties of the string operations *)

Module StrFacts.

Import Str.

Lemma eqb_eq (s t : pystr) : eqb s t = true <-> s = t.
Proof.
  revert t; induction s as [|c s IH]; intros [|d t]; simpl;
    try (split; [discriminate | discriminate]); try tauto.
  rewrite andb_true_iff, N.eqb_eq, IH.
  split; [intros [-> ->]; reflexivity | intros H; inversion H; auto].
Qed.

Lemma eqb_refl (s : pystr) : eqb s s = true.
Proof. apply eqb_eq; reflexivity. Qed.

Lemma eqb_neq (s t : pystr) : eqb s t = false <-> s <> t.
Proof.
  rewrite <- eqb_eq. destruct (eqb s t); split; congruence.
Qed.

(** *** Stripping *)

Lemma lstrip_spaces (ws s : pystr) :
  forallb isspace ws = true -> lstrip (ws ++ s) = lstrip s.
Proof.
  induction ws as [|c ws IH]; simpl; [reflexivity|].
  intros H; apply andb_true_iff in H as [-> H]; auto.
Qed.

Lemma lstrip_decompose (s : pystr) :
  exists ws, forallb isspace ws = true /\ s = ws ++ lstrip s.
Proof.
  induction s as [|c s (ws & Hws & IH)]; simpl.
  - exists []; auto.
  - destruct (isspace c) eqn:Hc.
    + exists (c :: ws); simpl; rewrite Hc, Hws; split; [reflexivity | congruence].
    + exists []; auto.
Qed.

Lemma lstrip_nil_iff (s : pystr) : lstrip s = [] <-> forallb isspace s = true.
Proof.
  induction s as [|c s IH]; simpl; [tauto|].
  destruct (isspace c); simpl; [exact IH | split; discriminate].
Qed.

Lemma lstrip_starts_word (s : pystr) :
  lstrip s = [] \/ starts_word (lstrip s) = true.
Proof.
  induction s as [|c s IH]; simpl; [auto|].
  destruct (isspace c) eqn:Hc; [exact IH | right; simpl; rewrite Hc; reflexivity].
Qed.

Lemma lstrip_fixed (s : pystr) : starts_word s = true -> lstrip s = s.
Proof.
  destruct s as [|c s]; simpl; [reflexivity|].
  destruct (isspace c); [discriminate | reflexivity].
Qed.

Lemma lstrip_idem (s : pystr) : lstrip (lstrip s) = lstrip s.
Proof.
  destruct (lstrip_starts_word s) as [-> | H]; [reflexivity | apply lstrip_fixed, H].
Qed.

Lemma forallb_isspace_rev (s : pystr) :
  forallb isspace (rev s) = forallb isspace s.
Proof.
  induction s as [|c s IH]; simpl; [reflexivity|].
  rewrite forallb_app, IH; simpl. rewrite andb_true_r, andb_comm; reflexivity.
Qed.

Lemma rstrip_decompose (s : pystr) :
  exists ws, forallb isspace ws = true /\ s = rstrip s ++ ws.
Proof.
  destruct (lstrip_decompose (rev s)) as (ws & Hws & E).
  exists (rev ws); split.
  - rewrite forallb_isspace_rev; exact Hws.
  - unfold rstrip. rewrite <- rev_app_distr, <- E, rev_involutive; reflexivity.
Qed.

Lemma rstrip_nil_iff (s : pystr) : rstrip s = [] <-> forallb isspace s = true.
Proof.
  unfold rstrip. rewrite <- forallb_isspace_rev, <- lstrip_nil_iff.
  split; intros H.
  - apply (f_equal (@rev char)) in H. rewrite rev_involutive in H; exact H.
  - rewrite H; reflexivity.
Qed.

Lemma forallb_isspace_lstrip (s : pystr) :
  forallb isspace s = true -> forallb isspace (lstrip s) = true.
Proof.
  intros H; apply lstrip_nil_iff in H; rewrite H; reflexivity.
Qed.

(** [s.strip()] is empty exactly when [s] is empty or all white space. *)
Lemma strip_nil_iff (s : pystr) : strip s = [] <-> forallb isspace s = true.
Proof.
  unfold strip. rewrite rstrip_nil_iff. split; intros H.
  - destruct (lstrip_decompose s) as (ws & Hws & E).
    rewrite E, forallb_app, Hws, H; reflexivity.
  - apply forallb_isspace_lstrip, H.
Qed.

Lemma rstrip_starts_word (s : pystr) :
  starts_word s = true -> starts_word (rstrip s) = true.
Proof.
  intros H. destruct (rstrip_decompose s) as (ws & Hws & E).
  destruct (rstrip s) as [|c r] eqn:Er.
  - simpl in E; subst s. destruct ws as [|w ws]; [discriminate|].
    simpl in H, Hws. destruct (isspace w); discriminate.
  - rewrite E in H; exact H.
Qed.

Lemma rstrip_idem (s : pystr) : rstrip (rstrip s) = rstrip s.
Proof.
  unfold rstrip. rewrite rev_involutive, lstrip_idem; reflexivity.
Qed.

(** Stripping a stripped string changes nothing. *)
Lemma strip_idem (s : pystr) : strip (strip s) = strip s.
Proof.
  unfold strip at 1.
  assert (E : lstrip (strip s) = strip s).
  { unfold strip. destruct (lstrip_starts_word s) as [-> | H]; [reflexivity|].
    apply lstrip_fixed, rstrip_starts_word, H. }
  rewrite E. unfold strip. apply rstrip_idem.
Qed.

(** *** Replacing *)

Lemma replace_from_absent (old new s : pystr) :
  contains old s = false -> replace_from old new 0 s = s.
Proof.
  induction s as [|c s IH]; simpl; [reflexivity|].
  intros H. apply orb_false_iff in H as [H1 H2].
  simpl in H1. rewrite H1, IH; auto.
Qed.

(** Replacing a phrase that does not occur changes nothing. *)
Lemma replace_absent (old new s : pystr) :
  contains old s = false -> replace old new s = s.
Proof.
  destruct old as [|a old]; intros H.
  - destruct s; discriminate.
  - apply replace_from_absent, H.
Qed.

(** *** Words *)

Lemma split_starts_word (s : pystr) :
  starts_word s = true -> exists w ws, split s = w :: ws.
Proof.
  destruct s as [|c s]; simpl; [discriminate|].
  destruct (isspace c); [discriminate|]. intros _.
  destruct (starts_word s); [destruct (split s)|]; eauto.
Qed.

Lemma split_words (s : pystr) : Forall (fun w => is_word w = true) (split s).
Proof.
  induction s as [|c s IH]; simpl; [constructor|].
  destruct (isspace c) eqn:Hc; [exact IH|].
  destruct (starts_word s) eqn:Hs.
  - destruct (split s) as [|w ws]; inversion IH; subst; constructor; auto;
      simpl; rewrite Hc; simpl; auto.
    destruct w; [discriminate | assumption].
  - constructor; [simpl; rewrite Hc; reflexivity | exact IH].
Qed.

Lemma split_spaces_l (ws s : pystr) :
  forallb isspace ws = true -> split (ws ++ s) = split s.
Proof.
  induction ws as [|c ws IH]; simpl; [reflexivity|].
  intros H; apply andb_true_iff in H as [-> H]; auto.
Qed.

Lemma starts_word_app (s t : pystr) :
  starts_word t = false -> starts_word (s ++ t) = starts_word s.
Proof. destruct s; simpl; auto. Qed.

Lemma split_spaces_r (ws s : pystr) :
  forallb isspace ws = true -> split (s ++ ws) = split s.
Proof.
  intros H. induction s as [|c s IH]; simpl.
  - rewrite <- (app_nil_r ws). apply split_spaces_l, H.
  - rewrite IH, starts_word_app; [reflexivity|].
    destruct ws as [|w ws]; [reflexivity|]. simpl in *.
    apply andb_true_iff in H as [-> _]; reflexivity.
Qed.

(** The words of a string are those of the stripped string. *)
Lemma split_strip (s : pystr) : split (strip s) = split s.
Proof.
  destruct (lstrip_decompose s) as (ws & Hws & E).
  destruct (rstrip_decompose (lstrip s)) as (ws' & Hws' & E').
  pose proof (split_spaces_l ws (lstrip s) Hws) as A. rewrite <- E in A.
  pose proof (split_spaces_r ws' (rstrip (lstrip s)) Hws') as B.
  rewrite <- E' in B. unfold strip. congruence.
Qed.

(** *** Joining *)

Lemma join_single (sep x : pystr) : join sep [x] = x.
Proof. reflexivity. Qed.

Lemma join_cons (sep x : pystr) (l : list pystr) :
  l <> [] -> join sep (x :: l) = x ++ sep ++ join sep l.
Proof. destruct l; [congruence | reflexivity]. Qed.

Lemma join_app (sep : pystr) (l1 l2 : list pystr) :
  l1 <> [] -> l2 <> [] ->
  join sep (l1 ++ l2) = join sep l1 ++ sep ++ join sep l2.
Proof.
  intros H1 H2. induction l1 as [|x l1 IH]; [congruence|].
  destruct l1 as [|y l1].
  - simpl app. rewrite join_cons by exact H2. reflexivity.
  - change ((x :: y :: l1) ++ l2) with (x :: (y :: l1) ++ l2).
    rewrite !join_cons by (simpl; congruence).
    rewrite IH by congruence. rewrite <- !app_assoc. reflexivity.
Qed.

Lemma join_words_length (sep : pystr) (l : list pystr) :
  Forall (fun w => is_word w = true) l -> length l <= length (join sep l).
Proof.
  induction 1 as [|w l Hw Hl IH]; [simpl; lia|].
  destruct l as [|y l].
  - destruct w; [discriminate | simpl; lia].
  - rewrite join_cons by congruence. rewrite !length_app.
    destruct w; [discriminate | simpl in *; lia].
Qed.

Lemma join_split_slack (c : char) (s : pystr) :
  length (join [c] (split s))
  + (if starts_word s then 0 else match s with [] => 0 | _ :: _ => 1 end)
  <= length s.
Proof.
  induction s as [|a s IH]; [simpl; lia|].
  simpl starts_word; simpl split; simpl length.
  destruct (isspace a); simpl negb; cbv iota.
  - destruct (starts_word s); [lia | destruct s; simpl in *; lia].
  - destruct (starts_word s) eqn:Hs.
    + destruct (split_starts_word s Hs) as (w & ws & E). rewrite E in *.
      destruct ws; simpl in *; lia.
    + destruct (split s) as [|w ws] eqn:E; [simpl; lia|].
      rewrite join_cons by congruence. rewrite !length_app.
      destruct s as [|b s]; [discriminate | simpl in *; lia].
Qed.

(** Joining the words of a string with one character between them is never
    longer than the string. *)
Lemma join_split_length (c : char) (s : pystr) :
  length (join [c] (split s)) <= length s.
Proof. pose proof (join_split_slack c s). lia. Qed.

(** Some of the words of a string, joined with one character between them
    and followed by one more character, are shorter than the string when a
    word is left out. *)
Lemma join_firstn_shorter (sep : pystr) (c e : char) (n : nat) (s : pystr) :
  sep = [c] -> 0 < n -> n < length (split s) ->
  length (join sep (firstn n (split s)) ++ [e]) < length s.
Proof.
  intros -> P L. pose proof (join_split_length c s) as B.
  assert (W : Forall (fun w => is_word w = true) (split s))
    by apply split_words.
  set (ws := split s) in *.
  rewrite <- (firstn_skipn n ws) in W. apply Forall_app in W as [_ W2].
  apply (join_words_length [c]) in W2. rewrite length_skipn in W2.
  assert (E : join [c] ws =
              join [c] (firstn n ws) ++ [c] ++ join [c] (skipn n ws)).
  { rewrite <- (firstn_skipn n ws) at 1.
    apply join_app; intros E; apply (f_equal (@length pystr)) in E;
      rewrite ?length_firstn, ?length_skipn in E; cbn [length] in E; lia. }
  rewrite E in B. rewrite !length_app in *. cbn [length] in *. lia.
Qed.

End StrFacts.

(** ** The operations on small inputs *)

Example strip_example : Str.strip (lit "  a b  ") = lit "a b".
Proof. reflexivity. Qed.

Example split_example :
  Str.split (lit " one  two three ") = [lit "one"; lit "two"; lit "three"].
Proof. reflexivity. Qed.

Example replace_example :
  Str.replace (lit "expedite") (lit "speed up") (lit "expeditexpedite!")
  = lit "speed upxpedite!".
Proof. reflexivity. Qed.

Example replace_empty_example :
  Str.replace [] (lit "-") (lit "abc") = lit "-a-b-c-".
Proof. reflexivity. Qed.

Example capitalize_example : Str.capitalize (lit "speed up") = lit "Speed up".
Proof. reflexivity. Qed.

Example split_sentences_example :
  Re.split_sentences (lit "Go.  Stop! Why?no . yes. ")
  = [lit "Go."; lit "Stop!"; lit "Why?no ."; lit "yes."; []].
Proof. reflexivity. Qed.

Example display_example :
  Dict.display [(lit "a", lit "1"); (lit "b", lit "2"); (lit "a", lit "3")]
  = [(lit "a", lit "3"); (lit "b", lit "2")].
Proof. reflexivity. Qed.

(** * Properties of the handler *)

Arguments simplify : simpl never.
Arguments shorten : simpl never.
Arguments remove_fillers : simpl never.
Arguments frame : simpl never.
Arguments guidance : simpl never.
Arguments long_sentence_tip : simpl never.
Arguments Str.strip : simpl never.
Arguments Str.split : simpl never.
Arguments Str.join : simpl never.
Arguments lit : simpl never.
Arguments sentence_step : simpl never.
Arguments joined : simpl never.
Arguments explain_text : simpl never.

Section HandlerFacts.

Import StrFacts.

Lemma is_kept_true (s : pystr) : is_kept s = true <-> Str.strip s <> [].
Proof.
  unfold is_kept. destruct (Str.strip s); simpl; split; congruence.
Qed.

Lemma is_kept_false (s : pystr) : is_kept s = false <-> Str.strip s = [].
Proof.
  unfold is_kept. destruct (Str.strip s); simpl; split; congruence.
Qed.

Lemma sentence_step_skip (acc : list pystr * list pystr) (s : pystr) :
  is_kept s = false -> sentence_step acc s = acc.
Proof.
  intros H. unfold sentence_step. destruct acc as [c t].
  fold (is_kept s). rewrite H. reflexivity.
Qed.

Lemma sentence_step_kept (c t : list pystr) (s : pystr) :
  is_kept s = true ->
  sentence_step (c, t) s =
    (c ++ [rendered s], t ++ (if is_long s then [long_sentence_tip] else [])).
Proof.
  intros H. unfold sentence_step, is_long, rendered.
  fold (is_kept s). rewrite H. simpl negb. cbv iota. simpl andb.
  destruct (24 <? _); [reflexivity | rewrite app_nil_r; reflexivity].
Qed.

(** The loop over the sentences, in closed form: the kept sentences are
    rendered in order, and every long sentence adds the tip once. *)
Lemma sentence_loop (ss : list pystr) (c t : list pystr) :
  fold_left sentence_step ss (c, t) =
    (c ++ map rendered (filter is_kept ss),
     t ++ repeat long_sentence_tip (length (filter is_long ss))).
Proof.
  revert c t; induction ss as [|s ss IH]; intros c t; simpl.
  - rewrite !app_nil_r; reflexivity.
  - assert (KL : is_kept s = false -> is_long s = false)
      by (unfold is_long; intros ->; reflexivity).
    destruct (is_kept s) eqn:K.
    + rewrite sentence_step_kept by exact K. rewrite IH.
      destruct (is_long s); simpl; rewrite <- !app_assoc; reflexivity.
    + rewrite sentence_step_skip by exact K. rewrite IH, KL by reflexivity.
      reflexivity.
Qed.

Lemma shorten_closed (simplified : pystr) :
  shorten simplified =
    (map rendered (filter is_kept (Re.split_sentences simplified)),
     repeat long_sentence_tip
            (length (filter is_long (Re.split_sentences simplified)))).
Proof. unfold shorten. rewrite sentence_loop. reflexivity. Qed.

Lemma str_items_map (l : list pystr) :
  Validate.str_items (map PyStr l) = Some l.
Proof.
  induction l as [|s l IH]; simpl; [reflexivity | rewrite IH; reflexivity].
Qed.

(** The response to a text that is empty or all white space. *)
Lemma explain_text_blank (payload : ExplainRequest) :
  Str.strip (text payload) = [] ->
  explain_text payload =
    Returns {| original := text payload; explanation := guidance; tips := None |}.
Proof.
  intros H. unfold explain_text. rewrite H. reflexivity.
Qed.

(** The response to any other text. *)
Lemma explain_text_nonblank (payload : ExplainRequest) :
  Str.strip (text payload) <> [] ->
  explain_text payload =
    Returns {| original := Str.strip (text payload);
               explanation := frame (Str.strip (text payload))
                                    (joined (Str.strip (text payload)));
               tips := match snd (shorten (simplify (Str.strip (text payload)))) with
                       | [] => None
                       | t :: ts => Some (t :: ts)
                       end |}.
Proof.
  intros H. unfold explain_text, joined.
  destruct (Str.strip (text payload)) as [|a o] eqn:E; [congruence|].
  simpl truthy. simpl negb. cbv iota.
  destruct (shorten (simplify (a :: o))) as [cs ts]. simpl fst; simpl snd.
  unfold Validate.response. simpl Validate.str. unfold bind at 1 2.
  destruct ts as [|t ts]; [reflexivity|].
  unfold py_or. simpl truthy. cbv iota.
  unfold Validate.optional_list_str. rewrite str_items_map. reflexivity.
Qed.

(** The handler never raises. *)
Lemma explain_text_returns (payload : ExplainRequest) :
  exists r, explain_text payload = Returns r.
Proof.
  destruct (Str.strip (text payload)) as [|a o] eqn:E.
  - rewrite explain_text_blank by exact E. eexists; reflexivity.
  - rewrite explain_text_nonblank by congruence. eexists; reflexivity.
Qed.

(** A sentence that is empty after trimming has no words. *)
Lemma long_is_kept (s : pystr) :
  24 < length (Str.split (remove_fillers (Str.strip s))) -> Str.strip s <> [].
Proof.
  intros L E. rewrite E in L. vm_compute in L. lia.
Qed.

End HandlerFacts.

(** * The specification of the explainer *)

Section Specification.

Import StrFacts.

Lemma filter_nil_existsb {A : Type} (f : A -> bool) (l : list A) :
  filter f l = [] <-> existsb f l = false.
Proof.
  induction l as [|x l IH]; simpl; [tauto|].
  destruct (f x); simpl; [split; discriminate | exact IH].
Qed.

(** C4: for a text that is empty or all white space the response carries the
    text exactly as submitted in [original], the explanation
    "Please provide some text to explain." and no tips; and whenever the
    [original] of a response differs from the trimmed text, the text was empty
    or all white space. *)
Theorem blank_text_gets_guidance (payload : ExplainRequest) :
  (forallb Str.isspace (text payload) = true ->
   explain_text payload =
     Returns {| original := text payload;
                explanation := lit "Please provide some text to explain.";
                tips := None |})
  /\ (forall r, explain_text payload = Returns r ->
        original r <> Str.strip (text payload) ->
        forallb Str.isspace (text payload) = true).
Proof.
  split.
  - intros H. apply explain_text_blank, strip_nil_iff, H.
  - intros r Hr Hne. apply strip_nil_iff.
    destruct (Str.strip (text payload)) as [|a o] eqn:E; [reflexivity|].
    rewrite explain_text_nonblank in Hr by congruence.
    exfalso; apply Hne.
    assert (R : forall x y : ExplainResponse, Returns x = Returns y -> x = y)
      by (intros x y X; injection X; auto).
    apply R in Hr. rewrite <- Hr. exact E.
Qed.

Lemma blank_text_gets_guidance_witness :
  explain_text (req "") =
    Returns {| original := []; explanation := guidance; tips := None |}
  /\ explain_text (req "   ") =
    Returns {| original := lit "   "; explanation := guidance; tips := None |}.
Proof.
  split.
  - apply (proj1 (blank_text_gets_guidance (req ""))). reflexivity.
  - apply (proj1 (blank_text_gets_guidance (req "   "))). reflexivity.
Defined.

(** C7: for every text the handler returns a response and raises nothing; for
    an empty or all-white-space text the response carries the guidance
    message, for any other text its [original] is the trimmed text. *)
Theorem explain_text_never_raises (payload : ExplainRequest) :
  exists r, explain_text payload = Returns r
    /\ (Str.strip (text payload) = [] /\ explanation r = guidance /\ tips r = None
        \/ Str.strip (text payload) <> [] /\ original r = Str.strip (text payload)).
Proof.
  destruct (Str.strip (text payload)) as [|a o] eqn:E.
  - rewrite explain_text_blank by exact E. eexists; split; [reflexivity|].
    left; auto.
  - rewrite explain_text_nonblank by congruence. eexists; split; [reflexivity|].
    right; split; [congruence | simpl; congruence].
Qed.

(** C10: a text that is not empty can get the empty explanation, without a
    prefix: for the text "in order to" the only sentence is a filler phrase,
    removing the fillers leaves nothing, the join is empty and differs from the
    original, and no tip is given.  The same holds for each filler phrase and
    its capitalized form. *)
Theorem filler_only_text_gives_empty_explanation :
  explain_text (req "in order to") =
    Returns {| original := lit "in order to"; explanation := []; tips := None |}
  /\ shorten (simplify (lit "in order to")) = ([[]], [])
  /\ Forall (fun f => explain_text {| text := f |} =
                        Returns {| original := f; explanation := []; tips := None |})
            (fillers ++ map Str.capitalize fillers)
  /\ exists payload, text payload <> []
       /\ explain_text payload =
            Returns {| original := Str.strip (text payload);
                       explanation := []; tips := None |}.
Proof.
  split; [vm_compute; reflexivity|].
  split; [vm_compute; reflexivity|].
  split; [repeat constructor|].
  exists (req "in order to"). split; [discriminate | vm_compute; reflexivity].
Qed.

(** C3: for a text whose trimmed form is not empty: when the joined
    explanation equals the trimmed text, the returned explanation is the joined
    text after "In simple terms: " if it has fewer than 30 words and after
    "Here's the gist: " if it has 30 words or more; when the joined
    explanation differs from the trimmed text, it is returned without a
    prefix. *)
Theorem fallback_framing (payload : ExplainRequest) :
  Str.strip (text payload) <> [] ->
  exists r, explain_text payload = Returns r
    /\ (joined (Str.strip (text payload)) = Str.strip (text payload) ->
        length (Str.split (joined (Str.strip (text payload)))) < 30 ->
        explanation r = lit "In simple terms: " ++ joined (Str.strip (text payload)))
    /\ (joined (Str.strip (text payload)) = Str.strip (text payload) ->
        30 <= length (Str.split (joined (Str.strip (text payload)))) ->
        explanation r = lit "Here's the gist: " ++ joined (Str.strip (text payload)))
    /\ (joined (Str.strip (text payload)) <> Str.strip (text payload) ->
        explanation r = joined (Str.strip (text payload))).
Proof.
  intros H. rewrite explain_text_nonblank by exact H.
  eexists; split; [reflexivity|]. simpl explanation. unfold frame.
  repeat split.
  - intros E L. rewrite (proj2 (eqb_eq _ _) E).
    apply Nat.ltb_lt in L; rewrite L; reflexivity.
  - intros E L. rewrite (proj2 (eqb_eq _ _) E).
    apply Nat.ltb_ge in L; rewrite L; reflexivity.
  - intros E. rewrite (proj2 (eqb_neq _ _) E); reflexivity.
Qed.

Lemma fallback_framing_witness :
  (exists r, explain_text (req "The cat sat.") = Returns r
     /\ explanation r = lit "In simple terms: The cat sat.")
  /\ (exists r, explain_text (req thirty_plain_words) = Returns r
     /\ explanation r = lit "Here's the gist: " ++ lit thirty_plain_words)
  /\ (exists r, explain_text (req "We utilize it.") = Returns r
     /\ explanation r = lit "We use it.").
Proof.
  split; [|split].
  - destruct (fallback_framing (req "The cat sat.")) as (r & Hr & H1 & _).
    { vm_compute; discriminate. }
    exists r; split; [exact Hr|].
    rewrite H1; [reflexivity | vm_compute; reflexivity | vm_compute; lia].
  - destruct (fallback_framing (req thirty_plain_words)) as (r & Hr & _ & H2 & _).
    { vm_compute; discriminate. }
    exists r; split; [exact Hr|].
    rewrite H2; [reflexivity | vm_compute; reflexivity | vm_compute; lia].
  - destruct (fallback_framing (req "We utilize it.")) as (r & Hr & _ & _ & H3).
    { vm_compute; discriminate. }
    exists r; split; [exact Hr|].
    rewrite H3; [reflexivity | vm_compute; discriminate].
Defined.

(** C6: for a text whose trimmed form is not empty the [tips] of the response
    is the list of tips, in order, when that list is not empty, and is absent
    when it is empty; and for every text, [tips] is present exactly when the
    trimmed text is not empty and one of its sentences was truncated. *)
Theorem tips_present_iff_truncated (payload : ExplainRequest) :
  exists r, explain_text payload = Returns r
    /\ (Str.strip (text payload) <> [] ->
        forall l, l = snd (shorten (simplify (Str.strip (text payload)))) ->
          (l <> [] -> tips r = Some l) /\ (l = [] -> tips r = None))
    /\ (tips r <> None <->
        Str.strip (text payload) <> []
        /\ existsb is_long
             (Re.split_sentences (simplify (Str.strip (text payload)))) = true).
Proof.
  destruct (Str.strip (text payload)) as [|a o] eqn:E.
  - rewrite explain_text_blank by exact E. eexists; split; [reflexivity|].
    simpl. split; [congruence|]. split; [congruence | intros [H _]; congruence].
  - rewrite explain_text_nonblank by congruence. rewrite E.
    eexists; split; [reflexivity|]. cbn [tips]. split.
    + intros _ l ->. destruct (snd _); split; congruence.
    + rewrite shorten_closed. cbn [snd].
      destruct (filter is_long _) as [|x xs] eqn:F.
      * apply filter_nil_existsb in F. rewrite F. cbn [length repeat].
        split; [congruence | intros [_ H]; discriminate].
      * assert (X : existsb is_long (Re.split_sentences (simplify (a :: o))) = true).
        { destruct (existsb _ _) eqn:X; [reflexivity|].
          apply filter_nil_existsb in X. congruence. }
        rewrite X. cbn [length repeat].
        split; [intros _; split; congruence | discriminate].
Qed.

Lemma tips_present_iff_truncated_witness :
  (exists r, explain_text (req twentyfive_words) = Returns r
     /\ tips r = Some [long_sentence_tip])
  /\ (exists r, explain_text (req "The cat sat.") = Returns r /\ tips r = None).
Proof.
  split.
  - destruct (tips_present_iff_truncated (req twentyfive_words)) as (r & Hr & H & _).
    exists r; split; [exact Hr|].
    apply (H ltac:(vm_compute; discriminate) [long_sentence_tip]);
      [vm_compute; reflexivity | discriminate].
  - destruct (tips_present_iff_truncated (req "The cat sat.")) as (r & Hr & H & _).
    exists r; split; [exact Hr|].
    apply (H ltac:(vm_compute; discriminate) []);
      [vm_compute; reflexivity | reflexivity].
Defined.

(** ** The jargon table *)

Lemma replacements_items : Dict.items replacements = Spec.jargon_table.
Proof. vm_compute. reflexivity. Qed.

Lemma capitalize_table :
  Forall (fun kv => Str.capitalize (fst kv) = Spec.Capitalize (fst kv)
                    /\ Str.capitalize (snd kv) = Spec.Capitalize (snd kv))
         Spec.jargon_table.
Proof. repeat constructor. Qed.

Lemma fold_left_agree {A B : Type} (f g : A -> B -> A) (l : list B) :
  Forall (fun b => forall a, f a b = g a b) l ->
  forall a, fold_left f l a = fold_left g l a.
Proof.
  induction 1 as [|b l Hb Hl IH]; intros a; simpl; [reflexivity|].
  rewrite Hb. apply IH.
Qed.

Lemma simplify_is_jargon_fold (original : pystr) :
  simplify original = Spec.jargon_fold original.
Proof.
  unfold simplify, Spec.jargon_fold. rewrite replacements_items.
  apply fold_left_agree.
  eapply Forall_impl; [|exact capitalize_table].
  intros [k v] [Hk Hv] a. unfold substitute, Spec.jargon_step.
  simpl fst in *; simpl snd in *. rewrite Hk, Hv. reflexivity.
Qed.

(** C1: for a text whose trimmed form is not empty, the string after the
    jargon substitution is the fold, from the trimmed text and over the jargon
    table in the order of its definition, of the step that replaces every
    occurrence of the phrase and then every occurrence of the phrase with its
    first character uppercased, each on the current string; the explanation is
    computed from that string.  So "Utilize this tool." becomes
    "Use this tool.", and in "terminateeavor" the later pair for "endeavor"
    sees the "end" that the earlier pair for "terminate" wrote. *)
Theorem jargon_substitution_is_table_fold (payload : ExplainRequest) :
  Str.strip (text payload) <> [] ->
  simplify (Str.strip (text payload)) = Spec.jargon_fold (Str.strip (text payload))
  /\ (exists r, explain_text payload = Returns r
        /\ explanation r =
             frame (Str.strip (text payload))
                   (Str.join (lit " ")
                      (fst (shorten (Spec.jargon_fold (Str.strip (text payload)))))))
  /\ (text payload = lit "Utilize this tool." ->
      simplify (Str.strip (text payload)) = lit "Use this tool.")
  /\ (text payload = lit "terminateeavor" ->
      simplify (Str.strip (text payload)) = lit "try").
Proof.
  intros H. split; [apply simplify_is_jargon_fold|]. split; [|split].
  - rewrite explain_text_nonblank by exact H.
    eexists; split; [reflexivity|]. cbn [explanation]. unfold joined.
    rewrite simplify_is_jargon_fold. reflexivity.
  - intros ->. vm_compute. reflexivity.
  - intros ->. vm_compute. reflexivity.
Qed.

Lemma jargon_substitution_is_table_fold_witness :
  simplify (lit "Utilize this tool.") = lit "Use this tool."
  /\ exists r, explain_text (req "Utilize this tool.") = Returns r
               /\ explanation r = lit "Use this tool.".
Proof.
  destruct (jargon_substitution_is_table_fold (req "Utilize this tool."))
    as (_ & (r & Hr & He) & Hu & _).
  { vm_compute; discriminate. }
  split.
  - exact (Hu eq_refl).
  - exists r; split; [exact Hr|]. rewrite He. vm_compute. reflexivity.
Defined.

(** ** One sentence *)

Lemma sentence_step_long (clean tips : list pystr) (s : pystr) :
  Str.strip s <> [] ->
  24 < length (Str.split (remove_fillers (Str.strip s))) ->
  sentence_step (clean, tips) s =
    (clean ++ [Str.join (lit " ")
                 (firstn 24 (Str.split (remove_fillers (Str.strip s))))
               ++ [ellipsis]],
     tips ++ [long_sentence_tip]).
Proof.
  intros K L. apply is_kept_true in K. apply Nat.ltb_lt in L.
  rewrite sentence_step_kept by exact K.
  unfold rendered, is_long. rewrite K, L. reflexivity.
Qed.

Lemma sentence_step_short (clean tips : list pystr) (s : pystr) :
  Str.strip s <> [] ->
  length (Str.split (remove_fillers (Str.strip s))) <= 24 ->
  sentence_step (clean, tips) s =
    (clean ++ [remove_fillers (Str.strip s)], tips).
Proof.
  intros K L. apply is_kept_true in K. apply Nat.ltb_ge in L.
  rewrite sentence_step_kept by exact K.
  unfold rendered, is_long. rewrite K, L. rewrite app_nil_r. reflexivity.
Qed.

Lemma rendered_nil_iff (s : pystr) :
  rendered s = [] <-> remove_fillers (Str.strip s) = [].
Proof.
  unfold rendered. split.
  - destruct (24 <? _); [|auto].
    intros H. apply app_eq_nil in H as [_ H]. discriminate.
  - intros ->. reflexivity.
Qed.

(** C5, as the handler has it: the sentences that are empty after trimming
    are dropped and give nothing to the join; every other sentence gives
    exactly one string, in order, and that string is empty exactly when
    removing the fillers leaves nothing of the sentence. *)
Theorem empty_sentences_are_dropped (payload : ExplainRequest) :
  fst (shorten (simplify (Str.strip (text payload)))) =
    map rendered
        (filter is_kept (Re.split_sentences (simplify (Str.strip (text payload)))))
  /\ joined (Str.strip (text payload)) =
       Str.join (lit " ")
         (map rendered
            (filter is_kept
               (Re.split_sentences (simplify (Str.strip (text payload))))))
  /\ (forall s, is_kept s = true <-> Str.strip s <> [])
  /\ (forall s, rendered s = [] <-> remove_fillers (Str.strip s) = []).
Proof.
  unfold joined. rewrite shorten_closed. cbn [fst].
  repeat split; try reflexivity;
    try apply is_kept_true; try apply rendered_nil_iff.
Qed.

(** C5, as stated, fails: the second sentence of "Done. in order to" is not
    empty after trimming, the removal of the fillers empties it, and the empty
    string is joined to "Done." with a space. *)
Lemma empty_string_reaches_the_join :
  In [] (fst (shorten (simplify (Str.strip (text (req "Done. in order to"))))))
  /\ explain_text (req "Done. in order to") =
       Returns {| original := lit "Done. in order to";
                  explanation := lit "Done. ";
                  tips := None |}.
Proof.
  split; [vm_compute; auto | vm_compute; reflexivity].
Qed.

(** ** Truncated sentences *)

Lemma single_spaced_word (b : bool) (w rest : pystr) :
  is_word w = true ->
  single_spaced_from b (w ++ rest) = single_spaced_from false rest.
Proof.
  destruct w as [|c w]; [discriminate|]. simpl is_word.
  revert b c. induction w as [|d w IH]; intros b c H; simpl in H |- *.
  - rewrite andb_true_r in H. apply negb_true_iff in H. rewrite H. reflexivity.
  - apply andb_true_iff in H as [Hc H]. apply negb_true_iff in Hc. rewrite Hc.
    apply (IH false d). exact H.
Qed.

Lemma single_spaced_join (b : bool) (ws : list pystr) :
  Forall (fun w => is_word w = true) ws -> ws <> [] ->
  single_spaced_from b (Str.join [32%N] ws ++ [ellipsis]) = true.
Proof.
  intros H. revert b. induction H as [|w ws Hw Hws IH]; intros b N; [congruence|].
  destruct ws as [|w' ws].
  - cbn [Str.join]. rewrite single_spaced_word by exact Hw. reflexivity.
  - rewrite join_cons by congruence. rewrite <- !app_assoc.
    rewrite single_spaced_word by exact Hw.
    cbn [app]. cbn [single_spaced_from].
    change (Str.isspace 32%N) with true. cbn [negb andb].
    change (N.eqb 32 32) with true. cbn [andb].
    apply IH. congruence.
Qed.

Lemma Forall_firstn {A : Type} (P : A -> Prop) (n : nat) (l : list A) :
  Forall P l -> Forall P (firstn n l).
Proof.
  intros H. revert n. induction H; intros [|n]; simpl; constructor; auto.
Qed.

(** C9: a sentence that is kept and has more than 24 words after the removal
    of the fillers gives its first 24 words joined by single spaces and the
    ellipsis, so no run of white space is left in what it gives; a sentence
    with 24 words or fewer gives its text after the removal of the fillers as
    it is, white space included. *)
Theorem truncation_collapses_whitespace (clean tips : list pystr) (s : pystr) :
  Str.strip s <> [] ->
  (24 < length (Str.split (remove_fillers (Str.strip s))) ->
   sentence_step (clean, tips) s =
     (clean ++ [Str.join (lit " ")
                  (firstn 24 (Str.split (remove_fillers (Str.strip s))))
                ++ [ellipsis]],
      tips ++ [long_sentence_tip])
   /\ single_spaced
        (Str.join (lit " ")
           (firstn 24 (Str.split (remove_fillers (Str.strip s))))
         ++ [ellipsis]) = true)
  /\ (length (Str.split (remove_fillers (Str.strip s))) <= 24 ->
      sentence_step (clean, tips) s =
        (clean ++ [remove_fillers (Str.strip s)], tips)).
Proof.
  intros K. split.
  - intros L. split; [apply sentence_step_long; assumption|].
    apply single_spaced_join.
    + apply Forall_firstn, split_words.
    + destruct (Str.split _) as [|w ws]; [simpl in L; lia | discriminate].
  - intros L. apply sentence_step_short; assumption.
Qed.

Lemma truncation_collapses_whitespace_witness :
  sentence_step ([], []) (lit spaced_words) =
    ([lit "a b c d e f g h i j k l m n o p q r s t u v w x" ++ [ellipsis]],
     [long_sentence_tip])
  /\ sentence_step ([], []) (lit "We met in order to talk.") =
       ([lit "We met  talk."], []).
Proof.
  split.
  - apply (proj1 (proj1 (truncation_collapses_whitespace [] [] (lit spaced_words)
             ltac:(vm_compute; discriminate)) ltac:(vm_compute; lia))).
  - apply (proj2 (truncation_collapses_whitespace [] []
             (lit "We met in order to talk.")
             ltac:(vm_compute; discriminate)) ltac:(vm_compute; lia)).
Defined.

(** ** A plain long sentence *)

Lemma fold_left_fixed {A B : Type} (f : A -> B -> A) (a : A) (l : list B) :
  Forall (fun b => f a b = a) l -> fold_left f l a = a.
Proof.
  induction 1 as [|b l Hb Hl IH]; simpl; [reflexivity|]. rewrite Hb. exact IH.
Qed.

Lemma existsb_false_Forall {A : Type} (f : A -> bool) (l : list A) :
  existsb f l = false -> Forall (fun x => f x = false) l.
Proof.
  induction l as [|x l IH]; simpl; [constructor|].
  intros H. apply orb_false_iff in H as [H1 H2]. constructor; auto.
Qed.

(** A text without jargon passes the substitution unchanged. *)
Lemma simplify_plain (s : pystr) : has_jargon s = false -> simplify s = s.
Proof.
  intros H. unfold simplify. apply fold_left_fixed.
  apply existsb_false_Forall in H.
  eapply Forall_impl; [|exact H]. intros [k v] X. cbn [fst] in X.
  apply orb_false_iff in X as [X1 X2]. unfold substitute.
  rewrite (replace_absent k v s X1). apply replace_absent, X2.
Qed.

(** A text without fillers passes their removal unchanged. *)
Lemma remove_fillers_plain (s : pystr) :
  has_filler s = false -> remove_fillers s = s.
Proof.
  intros H. unfold remove_fillers. apply fold_left_fixed.
  apply existsb_false_Forall in H.
  eapply Forall_impl; [|exact H]. intros f X. cbn beta in X.
  apply orb_false_iff in X as [X1 X2]. unfold remove_filler.
  rewrite (replace_absent f [] s X1). apply replace_absent, X2.
Qed.

(** The first 24 words and the ellipsis are shorter than a text of more than
    24 words. *)
Lemma truncated_shorter (s : pystr) :
  24 < length (Str.split s) ->
  length (Str.join (lit " ") (firstn 24 (Str.split s)) ++ [ellipsis]) < length s.
Proof.
  intros L. apply join_firstn_shorter with (c := 32%N); [reflexivity | lia | lia].
Qed.

(** C2: a sentence with more than 24 words after the removal of the fillers
    adds the tip "Long sentence shortened for clarity" once and gives
    its first 24 words, joined, with the ellipsis directly after the last of
    them; the tips of a call are that tip once for every such sentence.  In
    particular a text of 30 words that is one sentence and has no jargon and
    no filler in it gets its first 24 words and the ellipsis as explanation,
    and the tip once. *)
Theorem long_sentence_is_truncated :
  (forall (clean tips : list pystr) (s : pystr),
     24 < length (Str.split (remove_fillers (Str.strip s))) ->
     sentence_step (clean, tips) s =
       (clean ++ [Str.join (lit " ")
                    (firstn 24 (Str.split (remove_fillers (Str.strip s))))
                  ++ [ellipsis]],
        tips ++ [lit "Long sentence shortened for clarity"]))
  /\ (forall simplified : pystr,
        snd (shorten simplified) =
          repeat (lit "Long sentence shortened for clarity")
                 (length (filter is_long (Re.split_sentences simplified))))
  /\ (forall payload : ExplainRequest,
        length (Str.split (text payload)) = 30 ->
        has_jargon (Str.strip (text payload)) = false ->
        has_filler (Str.strip (text payload)) = false ->
        Re.split_sentences (Str.strip (text payload)) = [Str.strip (text payload)] ->
        explain_text payload =
          Returns {| original := Str.strip (text payload);
                     explanation :=
                       Str.join (lit " ") (firstn 24 (Str.split (text payload)))
                       ++ [ellipsis];
                     tips := Some [lit "Long sentence shortened for clarity"] |}).
Proof.
  split; [|split].
  - intros clean tips s L. apply sentence_step_long; [apply long_is_kept|]; assumption.
  - intros simplified. rewrite shorten_closed. reflexivity.
  - intros payload W J F S.
    rewrite <- split_strip in W. rewrite <- split_strip.
    set (o := Str.strip (text payload)) in *.
    assert (N : o <> []) by (intros E; rewrite E in W; discriminate).
    assert (I : Str.strip o = o) by apply strip_idem.
    rewrite explain_text_nonblank by exact N. fold o.
    assert (Sh : shorten (simplify o) =
                 ([Str.join (lit " ") (firstn 24 (Str.split o)) ++ [ellipsis]],
                  [long_sentence_tip])).
    { rewrite (simplify_plain o J). unfold shorten. rewrite S. cbn [fold_left].
      rewrite sentence_step_long.
      - rewrite I, (remove_fillers_plain o F). reflexivity.
      - rewrite I. exact N.
      - rewrite I, (remove_fillers_plain o F). lia. }
    unfold joined. rewrite Sh. cbn [fst snd]. rewrite join_single.
    unfold frame.
    assert (D : Str.eqb (Str.join (lit " ") (firstn 24 (Str.split o)) ++ [ellipsis]) o
                = false).
    { apply eqb_neq. intros E.
      pose proof (truncated_shorter o ltac:(lia)) as X. rewrite E in X. lia. }
    rewrite D. reflexivity.
Qed.

Lemma long_sentence_is_truncated_witness :
  sentence_step ([], []) (lit spaced_words) =
    ([lit "a b c d e f g h i j k l m n o p q r s t u v w x" ++ [ellipsis]],
     [long_sentence_tip])
  /\ explain_text (req thirty_word_sentence) =
       Returns {| original := lit thirty_word_sentence;
                  explanation :=
                    lit "a b c d e f g h i j k l m n o p q r s t u v w x"
                    ++ [ellipsis];
                  tips := Some [long_sentence_tip] |}.
Proof.
  split.
  - apply (proj1 long_sentence_is_truncated [] [] (lit spaced_words)).
    vm_compute; lia.
  - apply (proj2 (proj2 long_sentence_is_truncated) (req thirty_word_sentence));
      vm_compute; reflexivity.
Defined.

End Specification.

(** * Further properties of the explainer *)

Section Explainer.

Import Str StrFacts.

(** ** The fields of a response *)

Lemma app_longer {A : Type} (p l : list A) : p <> [] -> p ++ l <> l.
Proof.
  intros N E. apply (f_equal (@length A)) in E. rewrite length_app in E.
  destruct p; [congruence | simpl in E; lia].
Qed.

Lemma frame_differs (original explanation : pystr) :
  frame original explanation <> original.
Proof.
  unfold frame. destruct (Str.eqb explanation original) eqn:E.
  - apply eqb_eq in E. subst explanation.
    destruct (_ <? _); apply app_longer; discriminate.
  - apply eqb_neq, E.
Qed.

(** X1: the explanation of a response is never the same string as its
    original: an unchanged text gets a prefix, and the guidance message is not
    white space. *)
Theorem explanation_differs_from_original (payload : ExplainRequest) :
  exists r, explain_text payload = Returns r
            /\ Str.eqb (explanation r) (original r) = false.
Proof.
  destruct (Str.strip (text payload)) as [|a o] eqn:E.
  - rewrite explain_text_blank by exact E. eexists; split; [reflexivity|].
    cbn [explanation original]. apply eqb_neq. intros G.
    apply strip_nil_iff in E. rewrite <- G in E. vm_compute in E. discriminate.
  - rewrite explain_text_nonblank by congruence. eexists; split; [reflexivity|].
    cbn [explanation original]. apply eqb_neq, frame_differs.
Qed.

Lemma strip_clean_ends (s : pystr) :
  Str.strip s <> [] -> clean_ends (Str.strip s) = true.
Proof.
  intros N. unfold clean_ends. apply andb_true_iff. split.
  - unfold Str.strip in *. destruct (lstrip_starts_word s) as [E | H].
    + rewrite E in N. exfalso; apply N; reflexivity.
    + apply rstrip_starts_word, H.
  - unfold Str.strip, rstrip in *. rewrite rev_involutive.
    destruct (lstrip_starts_word (rev (lstrip s))) as [E | H]; [|exact H].
    rewrite E in N. exfalso; apply N; reflexivity.
Qed.

(** X2: for a text that is not blank, the original of the response is the
    text without the white space around it: the text is white space, then the
    original, then white space, and the original neither starts nor ends with
    white space. *)
Theorem original_is_trimmed_text (payload : ExplainRequest) :
  Str.strip (text payload) <> [] ->
  exists r before after,
    explain_text payload = Returns r
    /\ text payload = before ++ original r ++ after
    /\ forallb Str.isspace before = true
    /\ forallb Str.isspace after = true
    /\ clean_ends (original r) = true.
Proof.
  intros N. rewrite explain_text_nonblank by exact N.
  destruct (lstrip_decompose (text payload)) as (ws1 & H1 & E1).
  destruct (rstrip_decompose (lstrip (text payload))) as (ws2 & H2 & E2).
  eexists; exists ws1, ws2. split; [reflexivity|]. cbn [original].
  repeat split; try assumption.
  - rewrite E1 at 1. rewrite E2 at 1. reflexivity.
  - apply strip_clean_ends, N.
Qed.

Lemma original_is_trimmed_text_witness :
  exists r before after,
    explain_text (req "  We utilize it.   ") = Returns r
    /\ lit "  We utilize it.   " = before ++ original r ++ after
    /\ forallb Str.isspace before = true
    /\ forallb Str.isspace after = true
    /\ clean_ends (original r) = true.
Proof.
  apply (original_is_trimmed_text (req "  We utilize it.   ")).
  vm_compute; discriminate.
Defined.

(** ** Words *)

Lemma split_word_app (w rest : pystr) :
  is_word w = true -> starts_word rest = false ->
  split (w ++ rest) = w :: split rest.
Proof.
  destruct w as [|c w]; [discriminate|]. cbn [is_word].
  revert c. induction w as [|d w IH]; intros c H R.
  - cbn [forallb] in H. rewrite andb_true_r in H. apply negb_true_iff in H.
    cbn [app]. change (split (c :: rest))
      with (if isspace c then split rest
            else if starts_word rest
                 then match split rest with
                      | x :: xs => (c :: x) :: xs
                      | [] => [[c]]
                      end
                 else [c] :: split rest).
    rewrite H, R. reflexivity.
  - cbn [forallb] in H. apply andb_true_iff in H as [Hc H].
    apply negb_true_iff in Hc.
    specialize (IH d H R).
    change (split ((c :: d :: w) ++ rest))
      with (if isspace c then split ((d :: w) ++ rest)
            else if starts_word ((d :: w) ++ rest)
                 then match split ((d :: w) ++ rest) with
                      | x :: xs => (c :: x) :: xs
                      | [] => [[c]]
                      end
                 else [c] :: split ((d :: w) ++ rest)).
    rewrite Hc, IH. cbn [app starts_word].
    cbn [forallb] in H. apply andb_true_iff in H as [Hd _]. rewrite Hd.
    reflexivity.
Qed.

Lemma split_join_id (ws : list pystr) :
  Forall (fun w => is_word w = true) ws -> split (join (lit " ") ws) = ws.
Proof.
  induction 1 as [|w ws Hw Hws IH]; [reflexivity|].
  destruct ws as [|w2 ws].
  - rewrite join_single. rewrite <- (app_nil_r w) at 1.
    rewrite split_word_app by (exact Hw || reflexivity). reflexivity.
  - rewrite join_cons by congruence.
    rewrite split_word_app by (exact Hw || reflexivity).
    f_equal. exact IH.
Qed.

Lemma split_app_space (a b : pystr) (c : char) :
  isspace c = true -> split (a ++ c :: b) = split a ++ split b.
Proof.
  intros Hc. induction a as [|x a IH].
  - cbn [app]. change (split (c :: b))
      with (if isspace c then split b
            else if starts_word b
                 then match split b with
                      | w :: ws => (c :: w) :: ws
                      | [] => [[c]]
                      end
                 else [c] :: split b).
    rewrite Hc. reflexivity.
  - change (split ((x :: a) ++ c :: b))
      with (if isspace x then split (a ++ c :: b)
            else if starts_word (a ++ c :: b)
                 then match split (a ++ c :: b) with
                      | w :: ws => (x :: w) :: ws
                      | [] => [[x]]
                      end
                 else [x] :: split (a ++ c :: b)).
    change (split (x :: a))
      with (if isspace x then split a
            else if starts_word a
                 then match split a with
                      | w :: ws => (x :: w) :: ws
                      | [] => [[x]]
                      end
                 else [x] :: split a).
    rewrite IH. rewrite starts_word_app by (cbn [starts_word]; rewrite Hc; reflexivity).
    destruct (isspace x); [reflexivity|].
    destruct (starts_word a) eqn:Ha; [|reflexivity].
    destruct (split_starts_word a Ha) as (w & ws & E). rewrite E. reflexivity.
Qed.

(** The words of a join are the words of its parts. *)
Lemma split_join_parts (l : list pystr) :
  split (join (lit " ") l) = concat (map split l).
Proof.
  induction l as [|x l IH]; [reflexivity|].
  destruct l as [|y l].
  - rewrite join_single. cbn [map concat]. rewrite app_nil_r. reflexivity.
  - rewrite join_cons by congruence. change (lit " ") with [32%N : char].
    cbn [app]. rewrite split_app_space by reflexivity.
    change [32%N : char] with (lit " "). rewrite IH. reflexivity.
Qed.

(** X3: the words of strings joined with single spaces are the words of the
    strings, in order; so joining words and splitting the result gives the
    words back. *)
Theorem split_of_join :
  (forall l : list pystr,
     Str.split (Str.join (lit " ") l) = concat (map Str.split l))
  /\ (forall ws : list pystr,
        Forall (fun w => is_word w = true) ws ->
        Str.split (Str.join (lit " ") ws) = ws).
Proof.
  split; [exact split_join_parts | exact split_join_id].
Qed.

Lemma split_of_join_witness :
  Str.split (Str.join (lit " ") [lit "one"; lit "two,"; lit "three."])
  = [lit "one"; lit "two,"; lit "three."].
Proof.
  apply (proj2 split_of_join [lit "one"; lit "two,"; lit "three."]).
  repeat constructor.
Defined.

Lemma join_snoc (sep x w : pystr) (init : list pystr) :
  join sep (init ++ [w]) ++ x = join sep (init ++ [w ++ x]).
Proof.
  induction init as [|a init IH]; [reflexivity|].
  cbn [app]. rewrite !join_cons by (destruct init; discriminate).
  rewrite <- !app_assoc, IH. reflexivity.
Qed.

Lemma is_word_snoc (w : pystr) (e : char) :
  is_word w = true -> isspace e = false -> is_word (w ++ [e]) = true.
Proof.
  destruct w as [|c w]; [discriminate|]. cbn [is_word app]. intros H He.
  change (c :: w ++ [e]) with ((c :: w) ++ [e]).
  rewrite forallb_app, H. cbn [forallb]. rewrite He. reflexivity.
Qed.

Lemma truncated_word_count (ws : list pystr) :
  Forall (fun w => is_word w = true) ws -> ws <> [] ->
  length (split (join (lit " ") ws ++ [ellipsis])) = length ws.
Proof.
  intros W N. destruct (exists_last N) as (init & w & ->).
  rewrite join_snoc. apply Forall_app in W as [Wi Ww].
  rewrite split_join_id.
  - rewrite !length_app. reflexivity.
  - apply Forall_app. split; [exact Wi|]. constructor; [|constructor].
    apply is_word_snoc; [inversion Ww; assumption | reflexivity].
Qed.

Lemma rendered_word_count (s : pystr) :
  length (split (rendered s)) <= 24.
Proof.
  unfold rendered. destruct (24 <? _) eqn:L.
  - apply Nat.ltb_lt in L. rewrite truncated_word_count.
    + rewrite length_firstn. lia.
    + apply Forall_firstn, split_words.
    + destruct (split _); [simpl in L; lia | discriminate].
  - apply Nat.ltb_ge in L. exact L.
Qed.

Lemma concat_length_bound {A : Type} (n : nat) (l : list (list A)) :
  Forall (fun x => length x <= n) l -> length (concat l) <= n * length l.
Proof.
  induction 1 as [|x l Hx Hl IH]; cbn [concat length]; [lia|].
  rewrite length_app. lia.
Qed.

(** X4: every string that the loop appends to the clean sentences has at most
    24 words, a truncated one exactly 24 (the ellipsis belongs to the last of
    them); so the joined explanation has at most 24 words for every sentence
    of the text. *)
Theorem sentences_have_at_most_24_words (payload : ExplainRequest) :
  Forall (fun c => length (Str.split c) <= 24)
         (fst (shorten (simplify (Str.strip (text payload)))))
  /\ Forall (fun s => is_long s = true -> length (Str.split (rendered s)) = 24)
            (Re.split_sentences (simplify (Str.strip (text payload))))
  /\ length (Str.split (joined (Str.strip (text payload))))
     <= 24 * length (Re.split_sentences (simplify (Str.strip (text payload)))).
Proof.
  unfold joined. rewrite shorten_closed. cbn [fst].
  set (ss := Re.split_sentences _).
  assert (B : Forall (fun c => length (split c) <= 24)
                     (map rendered (filter is_kept ss))).
  { apply Forall_map, Forall_forall. intros s _. apply rendered_word_count. }
  split; [exact B|]. split.
  - apply Forall_forall. intros s _ L. unfold is_long in L.
    apply andb_true_iff in L as [_ L]. unfold rendered. rewrite L.
    apply Nat.ltb_lt in L. rewrite truncated_word_count.
    + rewrite length_firstn. lia.
    + apply Forall_firstn, split_words.
    + destruct (split _); [simpl in L; lia | discriminate].
  - rewrite split_join_parts.
    assert (B' : Forall (fun x => length x <= 24)
                        (map split (map rendered (filter is_kept ss)))).
    { apply Forall_map. exact B. }
    apply concat_length_bound in B'. rewrite !length_map in B'.
    pose proof (filter_length_le is_kept ss). lia.
Qed.

(** ** A plain short sentence *)

(** X5: a text that is one sentence of at most 24 words, without jargon and
    without fillers, comes back unchanged after "In simple terms: " and with
    no tips. *)
Theorem plain_short_sentence_is_framed (payload : ExplainRequest) :
  Str.strip (text payload) <> [] ->
  has_jargon (Str.strip (text payload)) = false ->
  has_filler (Str.strip (text payload)) = false ->
  Re.split_sentences (Str.strip (text payload)) = [Str.strip (text payload)] ->
  length (Str.split (text payload)) <= 24 ->
  explain_text payload =
    Returns {| original := Str.strip (text payload);
               explanation := lit "In simple terms: " ++ Str.strip (text payload);
               tips := None |}.
Proof.
  intros N J F S W. rewrite <- split_strip in W.
  set (o := Str.strip (text payload)) in *.
  assert (I : Str.strip o = o) by apply strip_idem.
  rewrite explain_text_nonblank by exact N. fold o.
  assert (Sh : shorten (simplify o) = ([o], [])).
  { rewrite (simplify_plain o J). unfold shorten. rewrite S. cbn [fold_left].
    rewrite sentence_step_short.
    - rewrite I, (remove_fillers_plain o F). reflexivity.
    - rewrite I. exact N.
    - rewrite I, (remove_fillers_plain o F). exact W. }
  unfold joined. rewrite Sh. cbn [fst snd]. rewrite join_single.
  unfold frame. rewrite eqb_refl.
  assert (L : (length (split o) <? 30) = true) by (apply Nat.ltb_lt; lia).
  rewrite L. reflexivity.
Qed.

Lemma plain_short_sentence_is_framed_witness :
  explain_text (req " The cat sat on the mat. ") =
    Returns {| original := lit "The cat sat on the mat.";
               explanation := lit "In simple terms: The cat sat on the mat.";
               tips := None |}.
Proof.
  apply (plain_short_sentence_is_framed (req " The cat sat on the mat. "));
    vm_compute; (discriminate || reflexivity || lia).
Defined.

(** ** The sentences of a text *)

Lemma split_from_head (b : bool) (cur s : pystr) :
  exists t rest, Re.split_from b cur s = (rev cur ++ t) :: rest.
Proof.
  revert b cur. induction s as [|c s IH]; intros b cur; cbn [Re.split_from].
  - exists [], []. rewrite app_nil_r. reflexivity.
  - destruct (isspace c).
    + destruct b; [apply IH|].
      destruct (Re.lookbehind cur).
      * exists [], (Re.split_from true [] s). rewrite app_nil_r. reflexivity.
      * destruct (IH false (c :: cur)) as (t & rest & E). rewrite E.
        exists (c :: t), rest. cbn [rev]. rewrite <- app_assoc. reflexivity.
    + destruct (IH false (c :: cur)) as (t & rest & E). rewrite E.
      exists (c :: t), rest. cbn [rev]. rewrite <- app_assoc. reflexivity.
Qed.

Lemma split_from_terminators (b : bool) (cur s : pystr) :
  Forall (fun p => ends_in_terminator p = true)
         (removelast (Re.split_from b cur s)).
Proof.
  revert b cur. induction s as [|c s IH]; intros b cur; cbn [Re.split_from].
  - constructor.
  - destruct (isspace c); [|apply IH].
    destruct b; [apply IH|].
    destruct (Re.lookbehind cur) eqn:L; [|apply IH].
    destruct (split_from_head true [] s) as (t & rest & E).
    specialize (IH true []). rewrite E in *. cbn [removelast].
    constructor; [|exact IH].
    unfold ends_in_terminator. rewrite rev_involutive. exact L.
Qed.

Lemma nonspace_app (a b : pystr) : nonspace (a ++ b) = nonspace a ++ nonspace b.
Proof. apply filter_app. Qed.

Lemma split_from_nonspace (b : bool) (cur s : pystr) :
  nonspace (concat (Re.split_from b cur s)) = nonspace (rev cur ++ s).
Proof.
  revert b cur. induction s as [|c s IH]; intros b cur; cbn [Re.split_from].
  - cbn [concat]. reflexivity.
  - assert (K' : nonspace (concat (Re.split_from false (c :: cur) s))
                 = nonspace (rev cur ++ c :: s)).
    { rewrite IH. cbn [rev]. rewrite <- app_assoc. reflexivity. }
    destruct (isspace c) eqn:Hc; [|exact K'].
    assert (D : nonspace (rev cur ++ c :: s) = nonspace (rev cur ++ s)).
    { rewrite !nonspace_app. unfold nonspace at 2. cbn [filter].
      rewrite Hc. reflexivity. }
    destruct b; [rewrite IH; symmetry; exact D|].
    destruct (Re.lookbehind cur); [|exact K'].
    cbn [concat]. rewrite D, !nonspace_app, IH. reflexivity.
Qed.

Lemma split_from_starts (b : bool) (cur s : pystr) :
  Forall (fun p => lstrip p = p) (tl (Re.split_from b cur s))
  /\ (b = true -> cur = [] ->
      lstrip (hd [] (Re.split_from b cur s)) = hd [] (Re.split_from b cur s)).
Proof.
  revert b cur. induction s as [|c s IH]; intros b cur; cbn [Re.split_from].
  - split; [constructor | intros _ ->; reflexivity].
  - destruct (isspace c) eqn:Hc.
    + destruct b; [apply IH|].
      destruct (Re.lookbehind cur).
      * split; [|discriminate]. cbn [tl].
        destruct (IH true []) as [T H].
        destruct (Re.split_from true [] s) as [|h t]; [constructor|].
        constructor; [apply H; reflexivity | exact T].
      * split; [apply IH | discriminate].
    + split; [apply IH|]. intros _ ->.
      destruct (split_from_head false [c] s) as (t & rest & E). rewrite E.
      cbn [hd rev app lstrip]. rewrite Hc. reflexivity.
Qed.

(** X6: the sentences that the regular expression cuts a string into: every
    sentence but the last ends with one of [.!?]; no sentence after the first
    starts with white space; and the characters that are not white space are
    those of the string, in order, none lost and none added. *)
Theorem sentences_of_a_string (s : pystr) :
  Forall (fun p => ends_in_terminator p = true)
         (removelast (Re.split_sentences s))
  /\ Forall (fun p => Str.lstrip p = p) (tl (Re.split_sentences s))
  /\ nonspace (concat (Re.split_sentences s)) = nonspace s.
Proof.
  unfold Re.split_sentences. split; [apply split_from_terminators|].
  split; [apply split_from_starts | apply split_from_nonspace].
Qed.

(** ** No sentence is skipped *)
















End Explainer.

(** * Properties of the diagnostic endpoint *)

Section DiagnosticsFacts.

(** The cases of a world: the two variables of the environment, what the
    import does, what the name and the call do. *)
Ltac world_cases w :=
  let imp := fresh "imp" in
  let env := fresh "env" in
  destruct w as [imp env];
  unfold reaches_connected, test_database, test_database_body, set_or_not;
  cbn [Db.getenv Db.import_db];
  destruct (env (lit "DATABASE_URL")) as [[|? ?]|];
  destruct (env (lit "DATABASE_NAME")) as [[|? ?]|];
  destruct imp as [[?|?]|[[[|?|[?|?]] [[|?|?]|[?|?]]]|]].

Ltac literal_lengths :=
  repeat match goal with
         | |- context [length (lit ?s)] =>
             let n := eval vm_compute in (length (lit s)) in
             change (length (lit s)) with n
         end.

(** X8: [test_database] always returns, whatever the import, the database
    object and the environment do; the dictionary it returns has the six keys
    of the initial one, in their order, and says that the backend runs. *)
Theorem test_database_returns_six_keys (w : Db.world) :
  exists response,
    test_database w = Stmt.Done response
    /\ ObjDict.keys response =
         [lit "backend"; lit "database"; lit "database_url";
          lit "database_name"; lit "connection_status"; lit "collections"]
    /\ ObjDict.get response (lit "backend")
       = Some (PyStr (check_mark ++ lit " Running")).
Proof.
  world_cases w; (eexists; split; [reflexivity | split; reflexivity]).
Qed.

(** X9: the fields [database_url] and [database_name] of the dictionary say
    only whether the variables DATABASE_URL and DATABASE_NAME are set to a
    string that is not empty; what the database wrote there before (the name
    of [db], "Configured") never reaches the caller. *)
Theorem environment_decides_url_and_name (w : Db.world) :
  exists response,
    test_database w = Stmt.Done response
    /\ ObjDict.get response (lit "database_url")
       = Some (PyStr match Db.getenv w (lit "DATABASE_URL") with
                     | Some (_ :: _) => check_mark ++ lit " Set"
                     | _ => cross_mark ++ lit " Not Set"
                     end)
    /\ ObjDict.get response (lit "database_name")
       = Some (PyStr match Db.getenv w (lit "DATABASE_NAME") with
                     | Some (_ :: _) => check_mark ++ lit " Set"
                     | _ => cross_mark ++ lit " Not Set"
                     end).
Proof.
  world_cases w; (eexists; split; [reflexivity | split; reflexivity]).
Qed.

(** X10: when the import gives a [db], reading its name does not raise and
    [list_collection_names] returns a list, the field [collections] is exactly
    the first ten items of that list, so at most ten, and the field [database]
    says "Connected & Working"; when the call is not reached, or raises, the
    field [collections] is the empty list. *)
Theorem collections_are_the_first_ten (w : Db.world) :
  (forall (db : Db.database) (l : list pyobj),
     Db.import_db w = Db.Imported (Some db) ->
     reaches_connected w = true ->
     Db.list_collection_names db = Db.Result (PyList l) ->
     exists response,
       test_database w = Stmt.Done response
       /\ ObjDict.get response (lit "collections") = Some (PyList (firstn 10 l))
       /\ length (firstn 10 l) <= 10
       /\ ObjDict.get response (lit "database")
          = Some (PyStr (check_mark ++ lit " Connected & Working")))
  /\ (reaches_connected w = false
      \/ (exists db e, Db.import_db w = Db.Imported (Some db)
                       /\ Db.list_collection_names db = Db.CallRaises e) ->
      exists response,
        test_database w = Stmt.Done response
        /\ ObjDict.get response (lit "collections") = Some (PyList [])).
Proof.
  split.
  - intros db l I R C. destruct w as [imp env]. cbn [Db.import_db] in I.
    subst imp. destruct db as [nm cl]. cbn [Db.list_collection_names] in C.
    subst cl. unfold reaches_connected in R. cbn [Db.import_db Db.name] in R.
    unfold test_database, test_database_body, set_or_not. cbn [Db.getenv].
    destruct (env (lit "DATABASE_URL")) as [[|? ?]|];
      destruct (env (lit "DATABASE_NAME")) as [[|? ?]|];
      destruct nm as [|?|?]; try discriminate;
      (eexists; split; [reflexivity | split; [reflexivity | split;
         [apply firstn_le_length | reflexivity]]]).
  - intros H.
    assert (K : reaches_connected w = false
                \/ exists db e, Db.import_db w = Db.Imported (Some db)
                     /\ Db.list_collection_names db = Db.CallRaises e)
      by exact H. clear H.
    world_cases w;
      try (eexists; split; reflexivity);
      exfalso; destruct K as [K | (db & e & I & C)];
      try discriminate;
      injection I as <-; discriminate.
Qed.

(** A database with twelve collections, and one whose listing fails. *)
Lemma collections_are_the_first_ten_witness :
  (exists response,
     test_database
       {| Db.import_db :=
            Db.Imported
              (Some {| Db.name := Db.Missing;
                       Db.list_collection_names :=
                         Db.Result
                           (PyList (map (fun s => PyStr (lit s))
                              ["a"; "b"; "c"; "d"; "e"; "f";
                               "g"; "h"; "i"; "j"; "k"; "l"]%string)) |});
          Db.getenv := fun _ => None |} = Stmt.Done response
     /\ ObjDict.get response (lit "collections")
        = Some (PyList (map (fun s => PyStr (lit s))
                  ["a"; "b"; "c"; "d"; "e"; "f"; "g"; "h"; "i"; "j"]%string)))
  /\ (exists response,
        test_database
          {| Db.import_db :=
               Db.Imported
                 (Some {| Db.name := Db.Missing;
                          Db.list_collection_names :=
                            Db.CallRaises (Db.OtherException (lit "down")) |});
             Db.getenv := fun _ => None |} = Stmt.Done response
        /\ ObjDict.get response (lit "collections") = Some (PyList [])).
Proof.
  split.
  - destruct (proj1 (collections_are_the_first_ten
                       {| Db.import_db :=
                            Db.Imported
                              (Some {| Db.name := Db.Missing;
                                       Db.list_collection_names :=
                                         Db.Result
                                           (PyList (map (fun s => PyStr (lit s))
                                              ["a"; "b"; "c"; "d"; "e"; "f";
                                               "g"; "h"; "i"; "j"; "k"; "l"]%string)) |});
                          Db.getenv := fun _ => None |})
                    _ _ eq_refl eq_refl eq_refl) as (r & Hr & Hc & _).
    exists r. split; [exact Hr | exact Hc].
  - apply (proj2 (collections_are_the_first_ten _)).
    right. eexists; eexists; split; reflexivity.
Defined.

(** X11: the field [connection_status] is "Connected" exactly when the import
    gave a [db] that is not [None] and reading its name did not raise, and is
    "Not Connected" otherwise; a failure of [list_collection_names] leaves it
    "Connected". *)
Theorem connection_status_follows_the_import (w : Db.world) :
  exists response,
    test_database w = Stmt.Done response
    /\ ObjDict.get response (lit "connection_status")
       = Some (PyStr (if reaches_connected w
                      then lit "Connected" else lit "Not Connected")).
Proof.
  world_cases w; (eexists; split; reflexivity).
Qed.

(** X12: the field [database] is a string of at most 75 characters: the text
    of an exception is cut to its first 50 characters. *)
Theorem database_message_is_bounded (w : Db.world) :
  exists response msg,
    test_database w = Stmt.Done response
    /\ ObjDict.get response (lit "database") = Some (PyStr msg)
    /\ length msg <= 75.
Proof.
  world_cases w;
    (eexists; eexists; split; [reflexivity | split; [reflexivity|]];
     repeat match goal with
            | |- context [firstn 50 ?m] =>
                pose proof (firstn_le_length 50 m);
                generalize dependent (firstn 50 m); intros
            end;
     rewrite ?length_app; literal_lengths;
     cbn [length check_mark cross_mark warning_sign]; lia).
Qed.

(** A database whose listing fails, with DATABASE_URL set. *)
Example test_database_listing_fails :
  test_database
    {| Db.import_db :=
         Db.Imported
           (Some {| Db.name := Db.Value (PyStr (lit "clarity"));
                    Db.list_collection_names :=
                      Db.CallRaises (Db.OtherException (lit "timed out")) |});
       Db.getenv := fun k => if Str.eqb k (lit "DATABASE_URL")
                             then Some (lit "mongodb://db") else None |}
  = Stmt.Done
      [ (lit "backend", PyStr (check_mark ++ lit " Running"));
        (lit "database",
         PyStr (warning_sign ++ lit "  Connected but Error: timed out"));
        (lit "database_url", PyStr (check_mark ++ lit " Set"));
        (lit "database_name", PyStr (cross_mark ++ lit " Not Set"));
        (lit "connection_status", PyStr (lit "Connected"));
        (lit "collections", PyList []) ].
Proof. reflexivity. Qed.

(** No database module, nothing set. *)
Example test_database_without_module :
  test_database
    {| Db.import_db :=
         Db.ImportRaises (Db.ImportError (lit "No module named 'database'"));
       Db.getenv := fun _ => None |}
  = Stmt.Done
      [ (lit "backend", PyStr (check_mark ++ lit " Running"));
        (lit "database",
         PyStr (cross_mark
                ++ lit " Database module not found (run enable-database first)"));
        (lit "database_url", PyStr (cross_mark ++ lit " Not Set"));
        (lit "database_name", PyStr (cross_mark ++ lit " Not Set"));
        (lit "connection_status", PyStr (lit "Not Connected"));
        (lit "collections", PyList []) ].
Proof. reflexivity. Qed.

End DiagnosticsFacts.
